(** * Command locks and bot set-up of the chat-bot core

    A shallow embedding of [bin/command/CommandLock.js] (the per-guild
    command lock), of the [Bot] class ([constructor], [setDefaultSetting],
    [defaultSettingExists], [getPrefix] and the 'guildDelete' listener
    of [start]) and of the [Event] class, with the properties the design
    document states about them and further properties of the code. *)

From Stdlib Require Import ZArith List.
From stdpp Require Import gmap strings list fin_maps.

Local Open Scope string_scope.
Set Warnings "-register-all".

(** * JavaScript values and completions *)

(** The values the embedded code handles: option bags, stored settings,
    command arguments.  Numbers are the integral ones; an object is its
    own-property map (an array is an object keyed by its indices). *)
Inductive JsValue : Type :=
| VUndefined
| VNull
| VBool (b : bool)
| VNum (n : Z)
| VStr (s : string)
| VObj (fields : gmap string JsValue).

(** [ToBoolean]: what [!v], [v || w] and [if (v)] test. *)
Definition truthy (v : JsValue) : bool :=
  match v with
  | VUndefined | VNull => false
  | VBool b => b
  | VNum n => negb (n =? 0)%Z
  | VStr s => negb (String.eqb s "")
  | VObj _ => true
  end.

(** [v || w] *)
Definition js_or (v w : JsValue) : JsValue := if truthy v then v else w.

Inductive JsError : Type :=
| TypeError
| Error (message : string).

(** How a call ends: with a value or with a thrown error. *)
Inductive Outcome (A : Type) : Type :=
| Return (a : A)
| Throw (e : JsError).
Arguments Return {A} a.
Arguments Throw {A} e.

(** Property read [v.k]: on [null] and [undefined] it throws a
    [TypeError]; an object yields its own property or [undefined]; the
    other values carry none of the keys read in this development. *)
Definition get_prop (v : JsValue) (k : string) : Outcome JsValue :=
  match v with
  | VUndefined | VNull => Throw TypeError
  | VObj o => Return (default VUndefined (o !! k))
  | _ => Return VUndefined
  end.

(** Property write [v[k] = x] in strict code (class bodies are strict):
    only an object takes the property, any other value throws a
    [TypeError]. *)
Definition set_prop (v : JsValue) (k : string) (x : JsValue) : Outcome JsValue :=
  match v with
  | VObj o => Return (VObj (<[k := x]> o))
  | _ => Throw TypeError
  end.

(** * Messages *)

Module Guild.
Record t : Type := mk { id : string }.
End Guild.

(** The part of a discord.js [Message] the lock looks at: [guild] is
    [null] outside a guild (direct messages).  Guild ids are snowflakes,
    strings of decimal digits, so they never name a property that a plain
    object inherits. *)
Module Message.
Record t : Type := mk {
  guild : option Guild.t;
  author : string;
  content : string }.
End Message.

(** A message sent in the guild [scope]. *)
Definition message_in (scope author content : string) : Message.t :=
  Message.mk (Some (Guild.mk scope)) author content.

(** * CommandLock *)

(** Calls on the host's timer interface.  A method body that schedules or
    cancels a timer shows it in its log of such calls. *)
Inductive TimerCall : Type :=
| setTimeout (delay : Z)
| clearTimeout.

(** The two states of a lock in one scope. *)
Inductive LockState : Type := Unlocked | Locked.

Module CommandLock.

(** The instance: [this.siblings] and [this._locks], the two fields the
    constructor sets. *)
Record t : Type := mk {
  siblings : list string;
  _locks : gmap string bool }.

(** What running a method body on an instance gives: its completion,
    the instance afterwards, and the timer calls it made. *)
Record Run (A : Type) : Type := mkRun {
  outcome : Outcome A;
  this : t;
  timer_calls : list TimerCall }.
Arguments mkRun {A} _ _ _.
Arguments outcome {A} _.
Arguments this {A} _.
Arguments timer_calls {A} _.

Definition M (A : Type) : Type := t -> Run A.

Definition ret {A} (a : A) : M A := fun s => mkRun (Return a) s [].

Definition throw {A} (e : JsError) : M A := fun s => mkRun (Throw e) s [].

Definition bind {A B} (m : M A) (f : A -> M B) : M B :=
  fun s =>
    let r := m s in
    match outcome r with
    | Return a =>
        let r' := f a (this r) in
        mkRun (outcome r') (this r') (timer_calls r ++ timer_calls r')
    | Throw e => mkRun (Throw e) (this r) (timer_calls r)
    end.

#[local] Notation "x <- m ;; k" := (bind m (fun x => k))
  (at level 100, m at next level, right associativity).

(** [message.guild.id] *)
Definition guild_id (message : Message.t) : M string :=
  match Message.guild message with
  | Some g => ret (Guild.id g)
  | None => throw TypeError
  end.

(** [this._locks[k]]: [None] is [undefined]. *)
Definition locks_get (k : string) : M (option bool) :=
  fun s => mkRun (Return (_locks s !! k)) s [].

(** [this._locks[k] = b] *)
Definition locks_set (k : string) (b : bool) : M unit :=
  fun s => mkRun (Return tt) (mk (siblings s) (<[k := b]> (_locks s))) [].

(** [delete this._locks[k]] *)
Definition locks_delete (k : string) : M unit :=
  fun s => mkRun (Return tt) (mk (siblings s) (delete k (_locks s))) [].

(** [v || false] for [v] a boolean or [undefined]. *)
Definition or_false (v : option bool) : bool :=
  match v with
  | Some b => b || false
  | None => false
  end.

(** [constructor(...siblings)] *)
Definition new (siblings : list string) : t := mk siblings ∅.

(** [lock(message, args)] *)
Definition lock (message : Message.t) (args : list JsValue) : M unit :=
  k <- guild_id message ;;
  locks_set k true.

(** [isLocked(message, args)] *)
Definition isLocked (message : Message.t) (args : list JsValue) : M bool :=
  k <- guild_id message ;;
  v <- locks_get k ;;
  ret (or_false v).

(** [free(message, args)] *)
Definition free (message : Message.t) (args : list JsValue) : M unit :=
  k <- guild_id message ;;
  locks_delete k.

Section Localization.

(** [Lang.res] and the [BaseStrings] key are defined outside this file:
    the localization store as it stands, the lookup [Lang.res(lang, key)]
    on it, and the resource id. *)
Variable LangStore : Type.
Variable Lang_res : LangStore -> string -> string -> string.
Variable DISPATCHER_ERR_COMMAND_LOCKED : string.

(** [getError(lang, message, args)] *)
Definition getError (store : LangStore) (lang : string)
    (message : Message.t) (args : list JsValue) : M string :=
  ret (Lang_res store lang DISPATCHER_ERR_COMMAND_LOCKED).

End Localization.

(** The state of the lock in [scope]: locked when [_locks[scope]] holds
    [true]. *)
Definition state (l : t) (scope : string) : LockState :=
  match _locks l !! scope with
  | Some true => Locked
  | _ => Unlocked
  end.

(** The instances that exist: built by the constructor and changed by
    the methods only ([_locks] is private). *)
Inductive reachable : t -> Prop :=
| reach_new sibs : reachable (new sibs)
| reach_lock l message args :
    reachable l -> reachable (this (lock message args l))
| reach_free l message args :
    reachable l -> reachable (this (free message args l)).

(** Every entry of [_locks] holds [true]. *)
Definition only_true (l : t) : Prop :=
  forall k b, _locks l !! k = Some b -> b = true.

(** [lock] schedules an auto-release for a command whose [lockTimeout] is
    [lockTimeout]: some call to [setTimeout] with that delay is in its
    log. *)
Definition schedules_auto_release (lockTimeout : Z) (calls : list TimerCall) : Prop :=
  In (setTimeout lockTimeout) calls.

(** [free] cancels a pending timer: a call to [clearTimeout] is in its
    log. *)
Definition cancels_timer (calls : list TimerCall) : Prop :=
  In clearTimeout calls.

End CommandLock.

(** * Commands and the lock instances they hold *)

Module Command.
(** Modelled from the spec: the fields of a [Command] that concern
    locking.  The class itself is not among the sources; the header of
    CommandLock.js documents that a command holds its lock in the field
    [lock], declares [guildOnly], and takes [lockTimeout] (milliseconds,
    [0] for none, [30000] when not given) from its [CommandInfo].  The
    field [lock] holds a reference, so several commands can hold one and
    the same instance. *)
Record t : Type := mk {
  name : string;
  guildOnly : bool;
  lock : option positive;
  lockTimeout : Z }.
End Command.

(** The methods of a lock as a caller names them. *)
Inductive Method : Type := mLock | mIsLocked | mFree.

(** One call [command.lock.method(message, args)]. *)
Record Call : Type := mkCall {
  call_command : Command.t;
  call_method : Method;
  call_message : Message.t;
  call_args : list JsValue }.

(** The call expression [command.lock.body(...)] as a caller of the lock
    writes it, on the store of lock instances: the body runs on the
    instance the command refers to and the instance is updated in place,
    for every holder of the reference.  A command without lock has
    [undefined] there and the call throws. *)
Definition on_lock {A} (c : Command.t) (body : CommandLock.M A)
    (h : gmap positive CommandLock.t) : Outcome A * gmap positive CommandLock.t :=
  match Command.lock c with
  | None => (Throw TypeError, h)
  | Some r =>
      match h !! r with
      | None => (Throw TypeError, h)
      | Some l =>
          let run := body l in
          (CommandLock.outcome run, <[r := CommandLock.this run]> h)
      end
  end.

(** The store after one call (what the call returns is dropped). *)
Definition step (c : Call) (h : gmap positive CommandLock.t) : gmap positive CommandLock.t :=
  match call_method c with
  | mLock => snd (on_lock (call_command c) (CommandLock.lock (call_message c) (call_args c)) h)
  | mIsLocked => snd (on_lock (call_command c) (CommandLock.isLocked (call_message c) (call_args c)) h)
  | mFree => snd (on_lock (call_command c) (CommandLock.free (call_message c) (call_args c)) h)
  end.

(** The store after a sequence of calls, first call first. *)
Fixpoint run_calls (cs : list Call) (h : gmap positive CommandLock.t) : gmap positive CommandLock.t :=
  match cs with
  | [] => h
  | c :: cs' => run_calls cs' (step c h)
  end.



(** * Bot *)

Definition Outcome_bind {A B} (m : Outcome A) (f : A -> Outcome B) : Outcome B :=
  match m with
  | Return a => f a
  | Throw e => Throw e
  end.

Notation "x <- m ;; k" := (Outcome_bind m (fun x => k))
  (at level 100, m at next level, right associativity).

(** The storage classes are used by [Bot] but defined elsewhere; their
    methods are taken as an interface. *)
Class LocalStorage (Store : Type) : Type := {
  (** [new LocalStorage(fileName)]: the store persisted under that name *)
  LocalStorage_new : string -> Store;
  (** [storage.exists(key)] *)
  exists_ : Store -> string -> bool;
  (** [storage.getItem(key)] *)
  getItem : Store -> string -> JsValue;
  (** [storage.setItem(key, value)] *)
  setItem : Store -> string -> JsValue -> Store }.

Class GuildStorage (GStore : Type) : Type := {
  (** [guild.settingExists(key)] *)
  settingExists : GStore -> string -> bool;
  (** [guild.setSetting(key, value)] *)
  setSetting : GStore -> string -> JsValue -> GStore }.

Module Bot.

Section WithStorage.

Context {Store GStore : Type} `{!LocalStorage Store} `{!GuildStorage GStore}.

(** [require('../storage/defaultGuildSettings.json')] *)
Variable defaultGuildSettings_json : JsValue.

(** The fields of the instance that hold data.  The loaders, the command
    registry and the dispatcher built at the end of the constructor are
    other classes' instances and hold none of the state used here. *)
Record t : Type := mk {
  name : JsValue;
  token : JsValue;
  commandsDir : JsValue;
  statusText : JsValue;
  selfbot : JsValue;
  version : JsValue;
  config : JsValue;
  storage : Store;
  guildSettingStorage : Store;
  guildStorages : gmap string GStore }.

(** [constructor(options = null)], up to [this.guildStorages]. *)
Definition constructor (arg : JsValue) : Outcome t :=
  let options := match arg with VUndefined => VNull | _ => arg end in
  o_name <- get_prop options "name" ;;
  let name := js_or o_name (VStr "botname") in
  token <- get_prop options "token" ;;
  commandsDir <- get_prop options "commandsDir" ;;
  o_statusText <- get_prop options "statusText" ;;
  let statusText := js_or o_statusText (VStr "@mention help") in
  o_selfbot <- get_prop options "selfbot" ;;
  let selfbot := js_or o_selfbot (VBool false) in
  o_version <- get_prop options "version" ;;
  let version := js_or o_version (VStr "0.0.0") in
  o_config <- get_prop options "config" ;;
  let config := js_or o_config VNull in
  if negb (truthy token) then
    Throw (Error "You must provide a token for the bot.")
  else if negb (truthy commandsDir) then
    Throw (Error "You must provide a directory to load commands from via commandDir")
  else if negb (truthy config) then
    Throw (Error "You must provide a config containing token and owner ids.")
  else
    let storage := LocalStorage_new "bot-storage" in
    let storage :=
      if negb (exists_ storage "defaultGuildSettings")
      then setItem storage "defaultGuildSettings" defaultGuildSettings_json
      else storage in
    let guildSettingStorage := LocalStorage_new "guild-storage" in
    Return (mk name token commandsDir statusText selfbot version config
               storage guildSettingStorage ∅).

(** The callback of [guildStorages.forEach] in [setDefaultSetting]. *)
Definition push_default (key : string) (value : JsValue) (guild : GStore) : GStore :=
  if negb (settingExists guild key) then setSetting guild key value else guild.

(** [setDefaultSetting(key, value)]: the completion and the instance
    afterwards. *)
Definition setDefaultSetting (key : string) (value : JsValue) (this : t) : Outcome unit * t :=
  let defaults := getItem (storage this) "defaultGuildSettings" in
  if negb (truthy defaults) then (Return tt, this)
  else
    match set_prop defaults key value with
    | Throw e => (Throw e, this)
    | Return defaults' =>
        let storage' := setItem (storage this) "defaultGuildSettings" defaults' in
        let guildStorages' := push_default key value <$> guildStorages this in
        (Return tt,
         mk (name this) (token this) (commandsDir this) (statusText this)
            (selfbot this) (version this) (config this)
            storage' (guildSettingStorage this) guildStorages')
    end.

End WithStorage.

End Bot.

(** Modelled from the spec: a [LocalStorage] as the key/value store the
    design document describes (the class is not among the sources): items
    by key, [getItem] giving [null] for a key without item, a new store
    starting empty. *)
#[local] Instance MapLocalStorage : LocalStorage (gmap string JsValue) := {
  LocalStorage_new _ := ∅;
  exists_ s k := bool_decide (is_Some (s !! k));
  getItem s k := default VNull (s !! k);
  setItem s k v := <[k := v]> s }.

(** Modelled from the spec: a [GuildStorage] as the per-scope settings
    store the design document describes (the class is not among the
    sources): settings by key, a setting existing when its key is
    present. *)
#[local] Instance MapGuildStorage : GuildStorage (gmap string JsValue) := {
  settingExists g k := bool_decide (is_Some (g !! k));
  setSetting g k v := <[k := v]> g }.

(** * More on the store of lock instances *)

(** Is the call a [lock] of the instance [r] in the guild [scope]? *)
Definition locks_in (r : positive) (scope : string) (c : Call) : bool :=
  match call_method c with
  | mLock =>
      bool_decide (Command.lock (call_command c) = Some r)
      && match Message.guild (call_message c) with
         | Some g => bool_decide (Guild.id g = scope)
         | None => false
         end
  | _ => false
  end.

(** The lock instance [r] is not Locked in [scope]. *)
Definition unlocked_at (h : gmap positive CommandLock.t) (r : positive) (scope : string) : Prop :=
  exists l, h !! r = Some l /\ CommandLock.state l scope = Unlocked.

(** * Bot: the queries and the guild-removal listener *)

(** Two more methods of the storage classes, used by [getPrefix] and by
    the 'guildDelete' listener; like the others they are defined
    elsewhere and taken as an interface. *)
Class GuildSettings (GStore : Type) : Type := {
  (** [guild.getSetting(key)] *)
  getSetting : GStore -> string -> JsValue }.

Class StorageRemoval (Store : Type) : Type := {
  (** [storage.removeItem(key)] *)
  removeItem : Store -> string -> Store }.

(** The names every object inherits from [Object.prototype].  A read of
    such a name finds the inherited member, not an own property; the
    property reads of this development are exact on all other names. *)
Definition inherited_names : list string :=
  [ "constructor"; "__proto__"; "hasOwnProperty"; "isPrototypeOf";
    "propertyIsEnumerable"; "toLocaleString"; "toString"; "valueOf";
    "__defineGetter__"; "__defineSetter__"; "__lookupGetter__";
    "__lookupSetter__" ].

Definition inherited_name (k : string) : bool :=
  bool_decide (k ∈ inherited_names).

Module BotMethods.

Section WithStorage.

Context {Store GStore : Type} `{!LocalStorage Store} `{!GuildStorage GStore}
        `{!GuildSettings GStore} `{!StorageRemoval Store}.

(** [defaultSettingExists(key)]: [!!item[key]] on the item under
    'defaultGuildSettings' (a plain object, or [null] when there is
    none), for a key that is not an inherited name. *)
Definition defaultSettingExists (key : string) (this : Bot.t (Store:=Store) (GStore:=GStore))
    : Outcome bool :=
  v <- get_prop (getItem (Bot.storage this) "defaultGuildSettings") key ;;
  Return (negb (negb (truthy v))).

(** [getPrefix(guild)] for a guild given by its id:
    [guildStorages.get(guild)] is [undefined] for an id without storage,
    and the call of [getSetting] on it throws. *)
Definition getPrefix (guild : string) (this : Bot.t (Store:=Store) (GStore:=GStore))
    : Outcome JsValue :=
  match Bot.guildStorages this !! guild with
  | None => Throw TypeError
  | Some storage => Return (js_or (getSetting storage "prefix") VNull)
  end.

(** The listener that [start] registers for 'guildDelete':
    [guildStorages.delete(guild.id)], then
    [guildSettingStorage.removeItem(guild.id)]. *)
Definition guildDelete_listener (guild : Guild.t) (this : Bot.t (Store:=Store) (GStore:=GStore))
    : Bot.t (Store:=Store) (GStore:=GStore) :=
  let guildStorages' := delete (Guild.id guild) (Bot.guildStorages this) in
  let guildSettingStorage' := removeItem (Bot.guildSettingStorage this) (Guild.id guild) in
  Bot.mk (Bot.name this) (Bot.token this) (Bot.commandsDir this) (Bot.statusText this)
         (Bot.selfbot this) (Bot.version this) (Bot.config this)
         (Bot.storage this) guildSettingStorage' guildStorages'.

End WithStorage.

End BotMethods.

(** Modelled from the spec: [getSetting] of the per-scope settings store
    the design document describes ([getSetting(key)] gives the value, or
    [null]); the class is not among the sources. *)
#[local] Instance MapGuildSettings : GuildSettings (gmap string JsValue) := {
  getSetting g k := default VNull (g !! k) }.

(** Modelled from the spec: [removeItem] of the key/value store the
    design document describes, dropping the item under the key; the
    class is not among the sources. *)
#[local] Instance MapStorageRemoval : StorageRemoval (gmap string JsValue) := {
  removeItem s k := delete k s }.

(** * Event *)

Module Event.

Section WithClient.

(** The client class [T] the handler is written for. *)
Variable Client : Type.

(** The instance: [name], and [client], which is not set before
    [_register] runs. *)
Record t : Type := mk {
  name : string;
  client : option Client }.

(** [constructor(name)] *)
Definition constructor (name : string) : t := mk name None.

(** [_register(client)] *)
Definition _register (client : Client) (this : t) : t := mk (name this) (Some client).

(** The clients of a sequence of [_register] calls, first call first. *)
Definition register_all (clients : list Client) (this : t) : t :=
  fold_left (fun e c => _register c e) clients this.

End WithClient.

End Event.

(** * Sample data *)

(** Three guild-only commands: "kick" and its sibling "ban" hold the lock
    instance 1, "mute" holds the instance 2 and has no timeout. *)
Definition kick : Command.t := Command.mk "kick" true (Some 1%positive) 30000.
Definition ban : Command.t := Command.mk "ban" true (Some 1%positive) 30000.
Definition mute : Command.t := Command.mk "mute" true (Some 2%positive) 0.

Definition sample_locks : gmap positive CommandLock.t :=
  <[2%positive := CommandLock.new []]> {[1%positive := CommandLock.new ["ban"]]}.

(** Calls that follow a lock of guild 42 through "kick", none of them a
    [free] of the instance 1 in guild 42. *)
Definition sample_calls : list Call :=
  [ mkCall ban mIsLocked (message_in "42" "bob" "!ban carol") [];
    mkCall mute mLock (message_in "42" "dave" "!mute erin") [];
    mkCall mute mFree (message_in "42" "dave" "!mute erin") [];
    mkCall kick mFree (message_in "43" "frank" "!kick gina") [] ].

(** Options with the three required entries; the same without config,
    and without config and directory. *)
Definition sample_options : gmap string JsValue :=
  <["config" := VObj {["token" := VStr "abc"]}]>
    (<["commandsDir" := VStr "./commands"]> {["token" := VStr "abc"]}).



(** A bot on the map storages, given its bot storage and guild storages. *)
Definition sample_bot (storage : gmap string JsValue)
    (guildStorages : gmap string (gmap string JsValue))
    : Bot.t (Store:=gmap string JsValue) (GStore:=gmap string JsValue) :=
  Bot.mk (VStr "botname") (VStr "abc") (VStr "./commands") (VStr "@mention help")
         (VBool false) (VStr "0.0.0") (VObj {["token" := VStr "abc"]})
         storage ∅ guildStorages.

(** Guild 42 has its own prefix, guild 43 has none. *)
Definition sample_guildStorages : gmap string (gmap string JsValue) :=
  <["43" := ∅]> {["42" := {["prefix" := VStr "!"]}]}.

Definition sample_storage : gmap string JsValue :=
  {["defaultGuildSettings" := VObj {["prefix" := VStr "/"]}]}.

(** * Properties of CommandLock *)

Module CommandLockFacts.
Import CommandLock.

(** ** The method bodies, run *)

Lemma lock_run (m : Message.t) (g : Guild.t) args l :
  Message.guild m = Some g ->
  lock m args l = mkRun (Return tt) (mk (siblings l) (<[Guild.id g := true]> (_locks l))) [].
Proof. intros Hg. unfold lock, bind, guild_id. rewrite Hg. reflexivity. Qed.

Lemma free_run (m : Message.t) (g : Guild.t) args l :
  Message.guild m = Some g ->
  free m args l = mkRun (Return tt) (mk (siblings l) (delete (Guild.id g) (_locks l))) [].
Proof. intros Hg. unfold free, bind, guild_id. rewrite Hg. reflexivity. Qed.

Lemma isLocked_run (m : Message.t) (g : Guild.t) args l :
  Message.guild m = Some g ->
  isLocked m args l = mkRun (Return (or_false (_locks l !! Guild.id g))) l [].
Proof. intros Hg. unfold isLocked, bind, guild_id. rewrite Hg. reflexivity. Qed.

(** Outside a guild [message.guild] is [null]: each of the three methods
    throws before it touches the instance. *)
Lemma no_guild_run (m : Message.t) args l :
  Message.guild m = None ->
  lock m args l = mkRun (Throw TypeError) l []
  /\ free m args l = mkRun (Throw TypeError) l []
  /\ isLocked m args l = mkRun (Throw TypeError) l [].
Proof.
  intros Hg. unfold lock, free, isLocked, bind, guild_id. rewrite Hg.
  repeat split.
Qed.

(** What [isLocked] answers is the state. *)
Lemma or_false_state l scope :
  or_false (_locks l !! scope) =
  match state l scope with Locked => true | Unlocked => false end.
Proof. unfold state. destruct (_locks l !! scope) as [[]|]; reflexivity. Qed.

Lemma state_Locked l scope : state l scope = Locked <-> _locks l !! scope = Some true.
Proof.
  unfold state. destruct (_locks l !! scope) as [[]|]; split; congruence.
Qed.

(** ** Instances built through the interface hold [true] only *)

Lemma reachable_only_true l : reachable l -> only_true l.
Proof.
  induction 1 as [sibs | l m args Hl IH | l m args Hl IH]; intros k b.
  - cbn. rewrite lookup_empty. discriminate.
  - destruct (Message.guild m) as [g|] eqn:Hg.
    + rewrite (lock_run m g args l Hg). cbn.
      destruct (decide (Guild.id g = k)) as [->|Hne].
      * rewrite lookup_insert_eq. congruence.
      * rewrite lookup_insert_ne by exact Hne. apply IH.
    + destruct (no_guild_run m args l Hg) as [-> _]. apply IH.
  - destruct (Message.guild m) as [g|] eqn:Hg.
    + rewrite (free_run m g args l Hg). cbn.
      destruct (decide (Guild.id g = k)) as [->|Hne].
      * rewrite lookup_delete_eq. discriminate.
      * rewrite lookup_delete_ne by exact Hne. apply IH.
    + destruct (no_guild_run m args l Hg) as [_ [-> _]]. apply IH.
Qed.

Lemma reachable_Unlocked l scope :
  reachable l -> state l scope = Unlocked -> _locks l !! scope = None.
Proof.
  intros Hr Hs. pose proof (reachable_only_true l Hr scope) as Hb.
  unfold state in Hs. destruct (_locks l !! scope) as [b|]; [|reflexivity].
  rewrite (Hb b eq_refl) in Hs. discriminate.
Qed.

Lemma mk_eta l : mk (siblings l) (_locks l) = l.
Proof. destruct l; reflexivity. Qed.

(** ** C1 *)

(** C1, as stated, fails: a command with [lockTimeout = 30000] locks the
    guild 42 on a new lock with sibling "ban".  The call makes no call to
    [setTimeout]; afterwards the instance is its sibling list and the
    entry [42 -> true], and the [free] that follows makes no call to
    [clearTimeout]. *)
Lemma lock_schedules_timer_counterexample :
  (0 < 30000)%Z
  /\ ~ schedules_auto_release 30000
        (timer_calls (lock (message_in "42" "alice" "!kick") [] (new ["ban"])))
  /\ this (lock (message_in "42" "alice" "!kick") [] (new ["ban"]))
     = mk ["ban"] {["42" := true]}
  /\ ~ cancels_timer
        (timer_calls (free (message_in "42" "alice" "!kick") []
                        (this (lock (message_in "42" "alice" "!kick") [] (new ["ban"]))))).
Proof.
  split; [reflexivity|]. split; [intros []|]. split; [reflexivity|]. intros [].
Qed.

(** C1, amended: whatever the command's [lockTimeout], [lock] makes no
    timer call and only sets the scope's entry of the locked-state
    mapping, and [free] makes no timer call and only deletes that entry;
    the instance stays the sibling list and the locked-state mapping.
    (Releasing after [lockTimeout] is left to the caller, by a call to
    [free].) *)
Theorem lock_free_make_no_timer_call (lockTimeout : Z) l scope author content args :
  lock (message_in scope author content) args l
    = mkRun (Return tt) (mk (siblings l) (<[scope := true]> (_locks l))) []
  /\ free (message_in scope author content) args l
    = mkRun (Return tt) (mk (siblings l) (delete scope (_locks l))) []
  /\ ~ schedules_auto_release lockTimeout
         (timer_calls (lock (message_in scope author content) args l))
  /\ ~ cancels_timer (timer_calls (free (message_in scope author content) args l)).
Proof.
  split; [reflexivity|]. split; [reflexivity|]. split; intros [].
Qed.

(** ** C2 *)

(** C2: [lock(scope)] returns and leaves the scope Locked, whatever its
    state was, so that [isLocked(scope)] is true right afterwards; on a
    scope that is already Locked it leaves the instance as it was. *)
Theorem lock_locks l scope author content args :
  outcome (lock (message_in scope author content) args l) = Return tt
  /\ state (this (lock (message_in scope author content) args l)) scope = Locked
  /\ (forall author' content' args',
        outcome (isLocked (message_in scope author' content') args'
                   (this (lock (message_in scope author content) args l)))
        = Return true)
  /\ (state l scope = Locked ->
        this (lock (message_in scope author content) args l) = l).
Proof.
  split; [reflexivity|]. split.
  { apply state_Locked. cbn. apply lookup_insert_eq. }
  split.
  { intros a' c' args'. cbn. rewrite lookup_insert_eq. reflexivity. }
  intros Hs. apply state_Locked in Hs. cbn.
  rewrite (insert_id _ _ _ Hs). apply mk_eta.
Qed.

Lemma lock_locks_witness :
  state (mk ["ban"] {["42" := true]}) "42" = Locked
  /\ this (lock (message_in "42" "bob" "!ban") [] (mk ["ban"] {["42" := true]}))
     = mk ["ban"] {["42" := true]}.
Proof.
  split; [reflexivity|].
  apply (lock_locks (mk ["ban"] {["42" := true]}) "42" "bob" "!ban" []).
  reflexivity.
Defined.

(** ** C3 *)

(** C3: [free(scope)] returns and leaves the scope Unlocked, whatever its
    state was, so that [isLocked(scope)] is false right afterwards; on a
    scope that is already Unlocked it changes the state of no scope and
    keeps the siblings, and it leaves an instance built through the
    interface exactly as it was. *)
Theorem free_unlocks l scope author content args :
  outcome (free (message_in scope author content) args l) = Return tt
  /\ state (this (free (message_in scope author content) args l)) scope = Unlocked
  /\ (forall author' content' args',
        outcome (isLocked (message_in scope author' content') args'
                   (this (free (message_in scope author content) args l)))
        = Return false)
  /\ (state l scope = Unlocked ->
        (forall scope', state (this (free (message_in scope author content) args l)) scope'
                        = state l scope')
        /\ siblings (this (free (message_in scope author content) args l)) = siblings l
        /\ (reachable l -> this (free (message_in scope author content) args l) = l)).
Proof.
  split; [reflexivity|]. split.
  { unfold state. cbn. rewrite lookup_delete_eq. reflexivity. }
  split.
  { intros a' c' args'. cbn. rewrite lookup_delete_eq. reflexivity. }
  intros Hs. split; [|split].
  - intros scope'. destruct (decide (scope = scope')) as [<-|Hne].
    + rewrite Hs. unfold state. cbn. rewrite lookup_delete_eq. reflexivity.
    + unfold state. cbn. rewrite lookup_delete_ne by exact Hne. reflexivity.
  - reflexivity.
  - intros Hr. cbn. rewrite delete_id by (apply reachable_Unlocked; assumption).
    apply mk_eta.
Qed.

Lemma free_unlocks_witness :
  state (new ["ban"]) "42" = Unlocked
  /\ reachable (new ["ban"])
  /\ this (free (message_in "42" "bob" "!ban") [] (new ["ban"])) = new ["ban"].
Proof.
  split; [reflexivity|]. split; [constructor|].
  apply (free_unlocks (new ["ban"]) "42" "bob" "!ban" []).
  - reflexivity.
  - constructor.
Defined.

(** ** C4 *)

(** C4: [isLocked] changes nothing (the instance is the same afterwards
    and no timer call is made, for every message), and in a scope it
    returns true when the state is Locked and false otherwise. *)
Theorem isLocked_is_a_pure_query l :
  (forall m args,
     this (isLocked m args l) = l /\ timer_calls (isLocked m args l) = [])
  /\ (forall scope author content args,
        outcome (isLocked (message_in scope author content) args l)
        = Return match state l scope with Locked => true | Unlocked => false end).
Proof.
  split.
  - intros m args. unfold isLocked, bind, guild_id.
    destruct (Message.guild m); split; reflexivity.
  - intros scope a c args. cbn. rewrite or_false_state. reflexivity.
Qed.

(** ** C5 *)

(** C5: for distinct scopes A and B, neither [lock(A)] nor [free(A)]
    changes what [isLocked(B)] returns. *)
Theorem other_scope_unchanged l (A B : string) authorA contentA argsA authorB contentB argsB :
  A <> B ->
  outcome (isLocked (message_in B authorB contentB) argsB
             (this (lock (message_in A authorA contentA) argsA l)))
  = outcome (isLocked (message_in B authorB contentB) argsB l)
  /\ outcome (isLocked (message_in B authorB contentB) argsB
                (this (free (message_in A authorA contentA) argsA l)))
     = outcome (isLocked (message_in B authorB contentB) argsB l).
Proof.
  intros Hne. cbn. rewrite lookup_insert_ne by exact Hne.
  rewrite lookup_delete_ne by exact Hne. split; reflexivity.
Qed.

Lemma other_scope_unchanged_witness :
  "42" <> "43"
  /\ outcome (isLocked (message_in "43" "bob" "!ban") []
                (this (lock (message_in "42" "alice" "!kick") [] (new ["ban"]))))
     = outcome (isLocked (message_in "43" "bob" "!ban") [] (new ["ban"])).
Proof.
  split; [discriminate|].
  apply (other_scope_unchanged (new ["ban"]) "42" "43" "alice" "!kick" [] "bob" "!ban" []).
  discriminate.
Defined.

(** ** C7 *)

(** C7: [getError] returns the lookup of the "command is locked"
    resource in the given language: two calls with the same language (on
    the localization store as it stands) return the same string whatever
    the instances, messages and arguments are, and neither changes its
    instance nor makes a timer call. *)
Theorem getError_depends_on_language_only
    (LangStore : Type) (Lang_res : LangStore -> string -> string -> string)
    (DISPATCHER_ERR_COMMAND_LOCKED : string) (store : LangStore) (lang : string)
    (m1 m2 : Message.t) (args1 args2 : list JsValue) (l1 l2 : t) :
  outcome (getError LangStore Lang_res DISPATCHER_ERR_COMMAND_LOCKED store lang m1 args1 l1)
  = outcome (getError LangStore Lang_res DISPATCHER_ERR_COMMAND_LOCKED store lang m2 args2 l2)
  /\ outcome (getError LangStore Lang_res DISPATCHER_ERR_COMMAND_LOCKED store lang m1 args1 l1)
     = Return (Lang_res store lang DISPATCHER_ERR_COMMAND_LOCKED)
  /\ this (getError LangStore Lang_res DISPATCHER_ERR_COMMAND_LOCKED store lang m1 args1 l1) = l1
  /\ timer_calls (getError LangStore Lang_res DISPATCHER_ERR_COMMAND_LOCKED store lang m1 args1 l1) = [].
Proof. repeat split. Qed.

(** ** C8 *)

(** C8: on a new lock [isLocked] returns false in every scope (every
    scope starts Unlocked), and [siblings] is the list of names given to
    the constructor, in order. *)
Theorem new_lock_is_unlocked (sibs : list string) scope author content args :
  outcome (isLocked (message_in scope author content) args (new sibs)) = Return false
  /\ state (new sibs) scope = Unlocked
  /\ siblings (new sibs) = sibs.
Proof.
  split; [|split; [|reflexivity]].
  - cbn. rewrite lookup_empty. reflexivity.
  - unfold state. cbn. rewrite lookup_empty. reflexivity.
Qed.

End CommandLockFacts.

(** * A lock shared by sibling commands *)

Module SharedLockFacts.

Lemma on_lock_other {A} (c : Command.t) (body : CommandLock.M A) h (r : positive) :
  Command.lock c <> Some r -> snd (on_lock c body h) !! r = h !! r.
Proof.
  intros Hne. unfold on_lock. destruct (Command.lock c) as [r'|]; [|reflexivity].
  destruct (h !! r') as [l'|] eqn:Hl'; [|reflexivity].
  cbn. apply lookup_insert_ne. congruence.
Qed.

Lemma on_lock_same {A} (c : Command.t) (body : CommandLock.M A) h (r : positive) l :
  Command.lock c = Some r -> h !! r = Some l ->
  on_lock c body h = (CommandLock.outcome (body l), <[r := CommandLock.this (body l)]> h).
Proof. intros Hc Hl. unfold on_lock. rewrite Hc, Hl. reflexivity. Qed.





End SharedLockFacts.

(** * Properties of Bot *)

Module BotFacts.
Import Bot.

Section WithStorage.

Context {Store GStore : Type} `{!LocalStorage Store} `{!GuildStorage GStore}.
Variable defaultGuildSettings_json : JsValue.

(** The constructor on an options object, case by case. *)
Lemma constructor_on_object (o : gmap string JsValue) :
  constructor (Store:=Store) (GStore:=GStore) defaultGuildSettings_json (VObj o) =
  if negb (truthy (default VUndefined (o !! "token"))) then
    Throw (Error "You must provide a token for the bot.")
  else if negb (truthy (default VUndefined (o !! "commandsDir"))) then
    Throw (Error "You must provide a directory to load commands from via commandDir")
  else if negb (truthy (js_or (default VUndefined (o !! "config")) VNull)) then
    Throw (Error "You must provide a config containing token and owner ids.")
  else
    Return (mk (js_or (default VUndefined (o !! "name")) (VStr "botname"))
               (default VUndefined (o !! "token"))
               (default VUndefined (o !! "commandsDir"))
               (js_or (default VUndefined (o !! "statusText")) (VStr "@mention help"))
               (js_or (default VUndefined (o !! "selfbot")) (VBool false))
               (js_or (default VUndefined (o !! "version")) (VStr "0.0.0"))
               (js_or (default VUndefined (o !! "config")) VNull)
               (if negb (exists_ (LocalStorage_new "bot-storage") "defaultGuildSettings")
                then setItem (LocalStorage_new "bot-storage") "defaultGuildSettings"
                       defaultGuildSettings_json
                else LocalStorage_new "bot-storage")
               (LocalStorage_new "guild-storage")
               ∅).
Proof.
  unfold constructor. cbn.
  destruct (truthy (default VUndefined (o !! "token"))); [|reflexivity].
  destruct (truthy (default VUndefined (o !! "commandsDir"))); [|reflexivity].
  destruct (truthy (js_or (default VUndefined (o !! "config")) VNull)); reflexivity.
Qed.

(** ** C10 *)


(** ** C9 *)

Lemma setDefaultSetting_guildStorages (key : string) (value : JsValue) (bot : t (Store:=Store) (GStore:=GStore)) :
  guildStorages (snd (setDefaultSetting key value bot)) = guildStorages bot
  \/ guildStorages (snd (setDefaultSetting key value bot))
     = push_default key value <$> guildStorages bot.
Proof.
  unfold setDefaultSetting.
  destruct (truthy (getItem (storage bot) "defaultGuildSettings")); cbn; [|left; reflexivity].
  destruct (set_prop _ key value); cbn; [right|left]; reflexivity.
Qed.

(** With a defaults object in the bot storage, the value is stored in
    the defaults and pushed to the guild storages. *)
Lemma setDefaultSetting_on_object (key : string) (value : JsValue) (bot : t (Store:=Store) (GStore:=GStore)) defaults :
  getItem (storage bot) "defaultGuildSettings" = VObj defaults ->
  setDefaultSetting key value bot =
  (Return tt,
   mk (name bot) (token bot) (commandsDir bot) (statusText bot) (selfbot bot)
      (version bot) (config bot)
      (setItem (storage bot) "defaultGuildSettings" (VObj (<[key := value]> defaults)))
      (guildSettingStorage bot)
      (push_default key value <$> guildStorages bot)).
Proof. intros Hd. unfold setDefaultSetting. rewrite Hd. reflexivity. Qed.

(** C9: [setDefaultSetting(key, value)] overwrites no existing guild
    setting.  A guild storage in which the key exists is the same
    afterwards; a guild storage that differs afterwards is one in which
    the key did not exist, and it received the value by [setSetting]; no
    guild storage appears or disappears.  When [getItem] finds no
    'defaultGuildSettings' item (it answers [null], or any value that
    counts as false) the call returns with the bot, all its storages
    included, as it was. *)
Theorem setDefaultSetting_spares_existing (key : string) (value : JsValue) (bot : t (Store:=Store) (GStore:=GStore)) :
  (forall id guild,
     guildStorages bot !! id = Some guild ->
     settingExists guild key = true ->
     guildStorages (snd (setDefaultSetting key value bot)) !! id = Some guild)
  /\ (forall id guild',
        guildStorages (snd (setDefaultSetting key value bot)) !! id = Some guild' ->
        exists guild,
          guildStorages bot !! id = Some guild
          /\ (guild' = guild
              \/ (settingExists guild key = false /\ guild' = setSetting guild key value)))
  /\ (truthy (getItem (storage bot) "defaultGuildSettings") = false ->
        setDefaultSetting key value bot = (Return tt, bot)).
Proof.
  split; [|split].
  - intros id guild Hg He.
    destruct (setDefaultSetting_guildStorages key value bot) as [-> | ->]; [exact Hg|].
    rewrite lookup_fmap, Hg. cbn. unfold push_default. rewrite He. reflexivity.
  - intros id guild' Hg'.
    destruct (setDefaultSetting_guildStorages key value bot) as [Heq | Heq];
      rewrite Heq in Hg'.
    + exists guild'. split; [exact Hg'|left; reflexivity].
    + rewrite lookup_fmap in Hg'.
      destruct (guildStorages bot !! id) as [guild|]; [|discriminate].
      cbn in Hg'. injection Hg' as <-. exists guild. split; [reflexivity|].
      unfold push_default. destruct (settingExists guild key); cbn.
      * left; reflexivity.
      * right. split; reflexivity.
  - intros Hd. unfold setDefaultSetting. rewrite Hd. reflexivity.
Qed.

End WithStorage.

(** [new Bot()]: without an argument [options] is [null] and the first
    property read throws. *)
Example constructor_without_options :
  constructor (Store:=gmap string JsValue) (GStore:=gmap string JsValue) VNull VUndefined
  = Throw TypeError.
Proof. reflexivity. Qed.



Lemma setDefaultSetting_spares_existing_witness :
  guildStorages
    (snd (setDefaultSetting "prefix" (VStr "?")
            (sample_bot sample_storage sample_guildStorages))) !! "42"
  = Some {["prefix" := VStr "!"]}
  /\ (exists guild : gmap string JsValue,
        sample_guildStorages !! "43" = Some guild
        /\ ({["prefix" := VStr "?"]} = guild
            \/ (settingExists guild "prefix" = false
                /\ {["prefix" := VStr "?"]} = setSetting guild "prefix" (VStr "?"))))
  /\ setDefaultSetting "prefix" (VStr "?") (sample_bot ∅ sample_guildStorages)
     = (Return tt, sample_bot ∅ sample_guildStorages).
Proof.
  split; [|split].
  - apply (proj1 (setDefaultSetting_spares_existing "prefix" (VStr "?")
                    (sample_bot sample_storage sample_guildStorages)));
      reflexivity.
  - apply (proj1 (proj2 (setDefaultSetting_spares_existing "prefix" (VStr "?")
                           (sample_bot sample_storage sample_guildStorages)))
             "43" {["prefix" := VStr "?"]}).
    reflexivity.
  - apply (proj2 (proj2 (setDefaultSetting_spares_existing "prefix" (VStr "?")
                           (sample_bot ∅ sample_guildStorages)))).
    reflexivity.
Defined.

End BotFacts.

(** * More properties of CommandLock *)

Module CommandLockMore.
Import CommandLock.

Lemma methods_keep_siblings (m : Message.t) args l :
  siblings (this (lock m args l)) = siblings l
  /\ siblings (this (free m args l)) = siblings l
  /\ this (isLocked m args l) = l.
Proof.
  unfold lock, free, isLocked, bind, guild_id.
  destruct (Message.guild m); repeat split.
Qed.

(** A call with a message from outside a guild leaves the store as it
    is. *)
Lemma step_outside_a_guild (c : Call) (h : gmap positive CommandLock.t) :
  Message.guild (call_message c) = None -> step c h = h.
Proof.
  intros Hg. unfold step, on_lock.
  destruct (Command.lock (call_command c)) as [r|]; [|destruct (call_method c); reflexivity].
  destruct (h !! r) as [l'|] eqn:Hl'; [|destruct (call_method c); reflexivity].
  destruct (CommandLockFacts.no_guild_run (call_message c) (call_args c) l' Hg)
    as (Hlock' & Hfree' & Hq').
  destruct (call_method c); rewrite ?Hlock', ?Hfree', ?Hq'; cbn;
    apply insert_id; exact Hl'.
Qed.

(** X1: with a message from outside a guild ([message.guild] is [null])
    [lock], [free] and [isLocked] throw a [TypeError] before they touch
    the instance; on the store of instances such a call, by whichever
    command and method, changes nothing. *)
Theorem outside_a_guild_nothing_changes (c : Call) (h : gmap positive CommandLock.t) l :
  Message.guild (call_message c) = None ->
  lock (call_message c) (call_args c) l = mkRun (Throw TypeError) l []
  /\ free (call_message c) (call_args c) l = mkRun (Throw TypeError) l []
  /\ isLocked (call_message c) (call_args c) l = mkRun (Throw TypeError) l []
  /\ step c h = h.
Proof.
  intros Hg.
  destruct (CommandLockFacts.no_guild_run (call_message c) (call_args c) l Hg)
    as (Hlock & Hfree & Hq).
  split; [exact Hlock|]. split; [exact Hfree|]. split; [exact Hq|].
  apply step_outside_a_guild. exact Hg.
Qed.

Lemma outside_a_guild_nothing_changes_witness :
  lock (Message.mk None "alice" "!kick") [] (mk ["ban"] {["42" := true]})
  = mkRun (Throw TypeError) (mk ["ban"] {["42" := true]}) []
  /\ step (mkCall kick mFree (Message.mk None "alice" "!kick") []) sample_locks
     = sample_locks.
Proof.
  destruct (outside_a_guild_nothing_changes
              (mkCall kick mFree (Message.mk None "alice" "!kick") [])
              sample_locks (mk ["ban"] {["42" := true]}) eq_refl)
    as (Hlock & _ & _ & Hstep).
  split; [exact Hlock|exact Hstep].
Defined.

(** X2: [free] undoes [lock].  A [free] after a [lock] of the same scope
    gives what the [free] alone gives; on an instance built through the
    interface whose scope is Unlocked, [lock] then [free] gives back the
    very instance. *)
Theorem free_undoes_lock l scope author content args author' content' args' :
  this (free (message_in scope author' content') args'
          (this (lock (message_in scope author content) args l)))
  = this (free (message_in scope author' content') args' l)
  /\ (reachable l -> state l scope = Unlocked ->
        this (free (message_in scope author' content') args'
                (this (lock (message_in scope author content) args l))) = l).
Proof.
  assert (Heq : this (free (message_in scope author' content') args'
                        (this (lock (message_in scope author content) args l)))
                = this (free (message_in scope author' content') args' l)).
  { cbn. rewrite delete_insert_eq. reflexivity. }
  split; [exact Heq|].
  intros Hr Hs. rewrite Heq. cbn.
  rewrite delete_id by (apply CommandLockFacts.reachable_Unlocked; assumption).
  apply CommandLockFacts.mk_eta.
Qed.

Lemma free_undoes_lock_witness :
  this (free (message_in "42" "bob" "!ban") []
          (this (lock (message_in "42" "alice" "!kick") []
                   (this (lock (message_in "7" "carol" "!kick") [] (new ["ban"]))))))
  = this (lock (message_in "7" "carol" "!kick") [] (new ["ban"])).
Proof.
  apply (free_undoes_lock (this (lock (message_in "7" "carol" "!kick") [] (new ["ban"])))
           "42" "alice" "!kick" [] "bob" "!ban" []).
  - apply reach_lock. apply reach_new.
  - reflexivity.
Defined.

(** X3: calls in two distinct scopes commute: the instance after
    [lock(A)] and [lock(B)], after [lock(A)] and [free(B)], and after
    [free(A)] and [free(B)] is the same in either order. *)
Theorem distinct_scopes_commute l (A B : string) authorA contentA argsA authorB contentB argsB :
  A <> B ->
  this (lock (message_in B authorB contentB) argsB
          (this (lock (message_in A authorA contentA) argsA l)))
  = this (lock (message_in A authorA contentA) argsA
            (this (lock (message_in B authorB contentB) argsB l)))
  /\ this (free (message_in B authorB contentB) argsB
             (this (lock (message_in A authorA contentA) argsA l)))
     = this (lock (message_in A authorA contentA) argsA
               (this (free (message_in B authorB contentB) argsB l)))
  /\ this (free (message_in B authorB contentB) argsB
             (this (free (message_in A authorA contentA) argsA l)))
     = this (free (message_in A authorA contentA) argsA
               (this (free (message_in B authorB contentB) argsB l))).
Proof.
  intros Hne. cbn. split; [|split]; f_equal.
  - apply insert_insert_ne. congruence.
  - apply delete_insert_ne. congruence.
  - apply delete_delete.
Qed.

Lemma distinct_scopes_commute_witness :
  this (free (message_in "43" "bob" "!ban") []
          (this (lock (message_in "42" "alice" "!kick") [] (mk ["ban"] {["43" := true]}))))
  = this (lock (message_in "42" "alice" "!kick") []
            (this (free (message_in "43" "bob" "!ban") [] (mk ["ban"] {["43" := true]})))).
Proof.
  assert (Hne : "42" <> "43") by discriminate.
  exact (proj1 (proj2 (distinct_scopes_commute (mk ["ban"] {["43" := true]}) "42" "43"
                         "alice" "!kick" [] "bob" "!ban" [] Hne))).
Defined.

(** X4: on an instance built through the interface the Locked scopes are
    exactly the keys of [_locks]: [free] leaves no entry behind, and no
    entry holds [false]. *)
Theorem locked_scopes_are_the_keys l scope :
  reachable l ->
  (state l scope = Locked <-> scope ∈ dom (_locks l))
  /\ (forall author content args,
        scope ∉ dom (_locks (this (free (message_in scope author content) args l)))).
Proof.
  intros Hr. split.
  - rewrite elem_of_dom. split.
    + intros Hs. apply CommandLockFacts.state_Locked in Hs. rewrite Hs. eexists; reflexivity.
    + intros [b Hb]. apply CommandLockFacts.state_Locked.
      rewrite Hb. f_equal. exact (CommandLockFacts.reachable_only_true l Hr scope b Hb).
  - intros author content args. cbn. rewrite elem_of_dom, lookup_delete_eq.
    intros [? ?]; discriminate.
Qed.

Lemma locked_scopes_are_the_keys_witness :
  state (this (lock (message_in "42" "alice" "!kick") [] (new ["ban"]))) "42" = Locked
  <-> "42" ∈ dom (_locks (this (lock (message_in "42" "alice" "!kick") [] (new ["ban"])))).
Proof.
  apply (locked_scopes_are_the_keys
           (this (lock (message_in "42" "alice" "!kick") [] (new ["ban"]))) "42").
  apply reach_lock. apply reach_new.
Defined.

(** X19: the lock is per guild and nothing else: two messages of the
    same guild, whoever their authors and whatever their content and the
    arguments, get the same from [lock], [free] and [isLocked] on the
    same instance. *)
Theorem same_guild_same_effect (m m' : Message.t) (args args' : list JsValue) l :
  Message.guild m = Message.guild m' ->
  lock m args l = lock m' args' l
  /\ free m args l = free m' args' l
  /\ isLocked m args l = isLocked m' args' l.
Proof.
  intros Hg. unfold lock, free, isLocked, bind, guild_id. rewrite Hg.
  repeat split.
Qed.

Lemma same_guild_same_effect_witness :
  isLocked (message_in "42" "alice" "!kick carol") [VStr "carol"]
    (mk ["ban"] {["42" := true]})
  = isLocked (message_in "42" "bob" "!ban dave") [VStr "dave"; VNum 7]
      (mk ["ban"] {["42" := true]}).
Proof.
  apply (same_guild_same_effect (message_in "42" "alice" "!kick carol")
           (message_in "42" "bob" "!ban dave") [VStr "carol"] [VStr "dave"; VNum 7]
           (mk ["ban"] {["42" := true]})).
  reflexivity.
Defined.

End CommandLockMore.

(** * More properties of the store of lock instances *)

Module SharedLockMore.

Lemma step_keeps_siblings (c : Call) (h : gmap positive CommandLock.t) (r : positive) :
  CommandLock.siblings <$> (step c h !! r) = CommandLock.siblings <$> (h !! r).
Proof.
  unfold step, on_lock.
  destruct (Command.lock (call_command c)) as [r'|]; [|destruct (call_method c); reflexivity].
  destruct (h !! r') as [l'|] eqn:Hl'; [|destruct (call_method c); reflexivity].
  destruct (CommandLockMore.methods_keep_siblings (call_message c) (call_args c) l')
    as (Hlock & Hfree & Hq).
  destruct (decide (r' = r)) as [->|Hne].
  - rewrite Hl'. destruct (call_method c); cbn; rewrite lookup_insert_eq; cbn;
      rewrite ?Hlock, ?Hfree, ?Hq; reflexivity.
  - destruct (call_method c); cbn; rewrite lookup_insert_ne by exact Hne; reflexivity.
Qed.

(** X5: no sequence of calls creates or drops a lock instance or changes
    the siblings of one: after the calls every reference holds an
    instance exactly when it did before, with the same sibling list. *)
Theorem calls_keep_instances_and_siblings (cs : list Call) (h : gmap positive CommandLock.t) :
  (forall r, CommandLock.siblings <$> (run_calls cs h !! r)
             = CommandLock.siblings <$> (h !! r))
  /\ dom (run_calls cs h) = dom h.
Proof.
  assert (Hs : forall r, CommandLock.siblings <$> (run_calls cs h !! r)
                         = CommandLock.siblings <$> (h !! r)).
  { revert h. induction cs as [|c cs IH]; intros h r; [reflexivity|].
    cbn. rewrite IH. apply step_keeps_siblings. }
  split; [exact Hs|].
  apply set_eq. intros r. rewrite !elem_of_dom. specialize (Hs r).
  destruct (run_calls cs h !! r), (h !! r); cbn in Hs; try discriminate;
    split; intros [? ?]; try discriminate; eexists; reflexivity.
Qed.

(** A call that is not a [lock] of the instance in the scope keeps the
    instance Unlocked in the scope. *)
Lemma step_keeps_unlocked (c : Call) h r scope :
  locks_in r scope c = false -> unlocked_at h r scope -> unlocked_at (step c h) r scope.
Proof.
  intros Hf (l & Hl & Hs). unfold unlocked_at.
  destruct (decide (Command.lock (call_command c) = Some r)) as [Hc|Hc].
  - destruct (Message.guild (call_message c)) as [g|] eqn:Hg.
    + unfold step. destruct (call_method c) eqn:Hm.
      * rewrite (SharedLockFacts.on_lock_same _ _ h r l Hc Hl),
          (CommandLockFacts.lock_run _ g _ _ Hg).
        cbn. eexists. rewrite lookup_insert_eq. split; [reflexivity|].
        unfold locks_in in Hf. rewrite Hm, Hg in Hf.
        rewrite (bool_decide_eq_true_2 _ Hc) in Hf. cbn in Hf.
        apply bool_decide_eq_false in Hf.
        unfold CommandLock.state in *. cbn.
        rewrite lookup_insert_ne by exact Hf. exact Hs.
      * rewrite (SharedLockFacts.on_lock_same _ _ h r l Hc Hl),
          (CommandLockFacts.isLocked_run _ g _ _ Hg).
        cbn. exists l. rewrite lookup_insert_eq. split; [reflexivity|exact Hs].
      * rewrite (SharedLockFacts.on_lock_same _ _ h r l Hc Hl),
          (CommandLockFacts.free_run _ g _ _ Hg).
        cbn. eexists. rewrite lookup_insert_eq. split; [reflexivity|].
        unfold CommandLock.state in *. cbn.
        destruct (decide (Guild.id g = scope)) as [->|Hne].
        -- rewrite lookup_delete_eq. reflexivity.
        -- rewrite lookup_delete_ne by exact Hne. exact Hs.
    + exists l. split; [|exact Hs]. rewrite <- Hl.
      rewrite (CommandLockMore.step_outside_a_guild c h Hg). reflexivity.
  - exists l. split; [|exact Hs]. rewrite <- Hl. unfold step.
    destruct (call_method c); apply SharedLockFacts.on_lock_other; exact Hc.
Qed.

Lemma run_calls_keeps_unlocked (cs : list Call) h r scope :
  forallb (fun c => negb (locks_in r scope c)) cs = true ->
  unlocked_at h r scope -> unlocked_at (run_calls cs h) r scope.
Proof.
  revert h. induction cs as [|c cs IH]; intros h Hcs Hl; [exact Hl|].
  cbn in Hcs. apply andb_prop in Hcs as [Hc Hcs]. apply negb_true_iff in Hc.
  cbn. apply IH; [exact Hcs|]. apply step_keeps_unlocked; assumption.
Qed.

(** X6: let the commands C and D hold one and the same lock instance.
    Once C has freed it in a scope, [isLocked] asked for D in that scope
    returns false, after any calls by any commands on any locks, as long
    as none of them is a [lock] of that instance in the scope: neither a
    query nor a call in another scope or on another instance locks it. *)
Theorem freed_scope_stays_unlocked
    (h : gmap positive CommandLock.t) (C D : Command.t) (r : positive) (scope : string)
    authorC contentC argsC authorD contentD argsD (calls : list Call) :
  Command.lock C = Some r ->
  Command.lock D = Some r ->
  is_Some (h !! r) ->
  forallb (fun c => negb (locks_in r scope c)) calls = true ->
  fst (on_lock D (CommandLock.isLocked (message_in scope authorD contentD) argsD)
         (run_calls calls
            (snd (on_lock C (CommandLock.free (message_in scope authorC contentC) argsC) h))))
  = Return false.
Proof.
  intros HC HD [l Hl] Hcalls.
  assert (Hun : unlocked_at
            (snd (on_lock C (CommandLock.free (message_in scope authorC contentC) argsC) h))
            r scope).
  { rewrite (SharedLockFacts.on_lock_same _ _ h r l HC Hl). cbn. eexists.
    rewrite lookup_insert_eq. split; [reflexivity|].
    unfold CommandLock.state. cbn. rewrite lookup_delete_eq. reflexivity. }
  apply (run_calls_keeps_unlocked calls) in Hun; [|exact Hcalls].
  destruct Hun as (l' & Hl' & Hs').
  rewrite (SharedLockFacts.on_lock_same _ _ _ r l' HD Hl'). cbn.
  rewrite CommandLockFacts.or_false_state, Hs'. reflexivity.
Qed.

Lemma freed_scope_stays_unlocked_witness :
  fst (on_lock ban (CommandLock.isLocked (message_in "42" "bob" "!ban carol") [])
         (run_calls sample_calls
            (snd (on_lock kick
                    (CommandLock.free (message_in "42" "alice" "!kick carol") [])
                    sample_locks))))
  = Return false.
Proof.
  apply (freed_scope_stays_unlocked sample_locks kick ban 1%positive "42"
           "alice" "!kick carol" [] "bob" "!ban carol" [] sample_calls).
  - reflexivity.
  - reflexivity.
  - exists (CommandLock.new ["ban"]). reflexivity.
  - reflexivity.
Defined.

End SharedLockMore.

(** * More properties of Bot *)

Module BotMore.
Import Bot BotMethods.

Lemma truthy_js_or (v d : JsValue) : truthy d = true -> truthy (js_or v d) = true.
Proof. intros Hd. unfold js_or. destruct (truthy v) eqn:Hv; assumption. Qed.


Section WithStorage.

Context {Store GStore : Type} `{!LocalStorage Store} `{!GuildStorage GStore}
        `{!GuildSettings GStore} `{!StorageRemoval Store}.
Variable defaultGuildSettings_json : JsValue.

(** What the constructor returns, when it returns. *)
Lemma constructor_returns (arg : JsValue) (bot : t (Store:=Store) (GStore:=GStore)) :
  constructor defaultGuildSettings_json arg = Return bot ->
  (exists o, arg = VObj o)
  /\ truthy (token bot) = true
  /\ truthy (commandsDir bot) = true
  /\ truthy (config bot) = true
  /\ truthy (name bot) = true
  /\ truthy (statusText bot) = true
  /\ truthy (version bot) = true
  /\ guildStorages bot = ∅.
Proof.
  intros H. destruct arg as [| |b|n|s|o]; try (cbn in H; discriminate).
  rewrite BotFacts.constructor_on_object in H.
  destruct (truthy (default VUndefined (o !! "token"))) eqn:Ht; [|discriminate].
  destruct (truthy (default VUndefined (o !! "commandsDir"))) eqn:Hd; [|discriminate].
  destruct (truthy (js_or (default VUndefined (o !! "config")) VNull)) eqn:Hc; [|discriminate].
  cbn in H. injection H as <-. cbn.
  split; [eexists; reflexivity|].
  repeat split; try assumption; apply truthy_js_or; reflexivity.
Qed.

(** X7: whatever the argument, a bot that the constructor returns was
    built from an options object and has a token, a commands directory
    and a config that count as true, a name, a status text and a version
    that count as true (the given ones or the defaults), and no guild
    storage yet. *)
Theorem constructed_bot_is_complete (arg : JsValue) (bot : t (Store:=Store) (GStore:=GStore)) :
  constructor defaultGuildSettings_json arg = Return bot ->
  (exists o, arg = VObj o)
  /\ truthy (token bot) = true
  /\ truthy (commandsDir bot) = true
  /\ truthy (config bot) = true
  /\ truthy (name bot) = true
  /\ truthy (statusText bot) = true
  /\ truthy (version bot) = true
  /\ guildStorages bot = ∅.
Proof. apply constructor_returns. Qed.

(** X8: an argument that is no object never gives a bot: without
    argument, or with [undefined] or [null], the first property read
    throws a [TypeError]; a boolean, a number or a string has no token
    and gets the token message. *)
Theorem constructor_rejects_non_objects (arg : JsValue) :
  (forall o, arg <> VObj o) ->
  constructor (Store:=Store) (GStore:=GStore) defaultGuildSettings_json arg
  = match arg with
    | VUndefined | VNull => Throw TypeError
    | _ => Throw (Error "You must provide a token for the bot.")
    end.
Proof.
  intros Hno. destruct arg as [| |b|n|s|o]; try reflexivity.
  exfalso. exact (Hno o eq_refl).
Qed.

(** X9: right after construction there is no guild storage: [getPrefix]
    throws a [TypeError] for every guild id, and [setDefaultSetting]
    reaches no guild storage. *)
Theorem new_bot_knows_no_guild (arg : JsValue) (bot : t (Store:=Store) (GStore:=GStore)) :
  constructor defaultGuildSettings_json arg = Return bot ->
  (forall guild, getPrefix guild bot = Throw TypeError)
  /\ (forall key value, guildStorages (snd (setDefaultSetting key value bot)) = ∅).
Proof.
  intros H. apply constructor_returns in H as (_ & _ & _ & _ & _ & _ & _ & Hg).
  split.
  - intros guild. unfold getPrefix. rewrite Hg, lookup_empty. reflexivity.
  - intros key value.
    destruct (BotFacts.setDefaultSetting_guildStorages key value bot) as [-> | ->];
      rewrite Hg; [reflexivity|apply fmap_empty].
Qed.

(** ** setDefaultSetting *)


Lemma push_default_twice (key : string) (v1 v2 : JsValue) (g : GStore) :
  settingExists (setSetting g key v1) key = true ->
  push_default key v2 (push_default key v1 g) = push_default key v1 g.
Proof.
  intros Hlaw. unfold push_default at 2 3.
  destruct (settingExists g key) eqn:He; cbn.
  - unfold push_default. rewrite He. reflexivity.
  - unfold push_default. rewrite Hlaw. reflexivity.
Qed.

(** X11: the first default reaches the guilds, a later one does not.
    Let the bot storage give back the object it was given, and let a
    setting exist once it was set.  After [setDefaultSetting(key, v1)],
    a call [setDefaultSetting(key, v2)] returns and changes no guild
    storage: every guild keeps the value it had or got from the first
    call. *)
Theorem later_default_reaches_no_guild
    (key : string) (v1 v2 : JsValue) (bot : t (Store:=Store) (GStore:=GStore)) defaults :
  getItem (storage bot) "defaultGuildSettings" = VObj defaults ->
  (forall o, getItem (setItem (storage bot) "defaultGuildSettings" (VObj o))
               "defaultGuildSettings" = VObj o) ->
  (forall g, settingExists (setSetting g key v1) key = true) ->
  fst (setDefaultSetting key v2 (snd (setDefaultSetting key v1 bot))) = Return tt
  /\ guildStorages (snd (setDefaultSetting key v2 (snd (setDefaultSetting key v1 bot))))
     = guildStorages (snd (setDefaultSetting key v1 bot)).
Proof.
  intros Hd Hget Hex.
  rewrite (BotFacts.setDefaultSetting_on_object key v1 bot defaults Hd). cbn [snd].
  erewrite BotFacts.setDefaultSetting_on_object; [|cbn; apply Hget].
  cbn. split; [reflexivity|].
  rewrite <- map_fmap_compose. apply map_fmap_ext. intros id g Hg. cbn.
  apply push_default_twice. apply Hex.
Qed.

(** ** defaultSettingExists *)

(** X12: [defaultSettingExists] throws exactly when [getItem] gives
    [null] or [undefined] for 'defaultGuildSettings', and then a
    [TypeError]; [setDefaultSetting], on a bot storage without the item,
    returns and leaves the bot as it is. *)
Theorem defaultSettingExists_needs_the_item
    (key : string) (bot : t (Store:=Store) (GStore:=GStore)) :
  ((exists e, defaultSettingExists key bot = Throw e)
   <-> (getItem (storage bot) "defaultGuildSettings" = VNull
        \/ getItem (storage bot) "defaultGuildSettings" = VUndefined))
  /\ (forall e, defaultSettingExists key bot = Throw e ->
        e = TypeError
        /\ forall value, setDefaultSetting key value bot = (Return tt, bot)).
Proof.
  unfold defaultSettingExists, setDefaultSetting.
  destruct (getItem (storage bot) "defaultGuildSettings") as [| |b|n|s|o]; cbn; split.
  all: try (split; [intros [e He]; discriminate|intros [Hx|Hx]; discriminate]).
  all: try (intros e He; discriminate).
  - split; [right; reflexivity|eexists; reflexivity].
  - intros e He. injection He as <-. split; reflexivity.
  - split; [left; reflexivity|eexists; reflexivity].
  - intros e He. injection He as <-. split; reflexivity.
Qed.

(** X13: what [setDefaultSetting] stores, [defaultSettingExists] reads
    back.  Let the item under 'defaultGuildSettings' be a plain object,
    the bot storage give back the object it was given, and [key] be no
    inherited name.  After [setDefaultSetting(key, value)],
    [defaultSettingExists(key)] returns whether [value] counts as true (a
    default set to [false], [0] or the empty string is reported as not
    existing), and for every other key it returns what it returned
    before. *)
Theorem defaultSettingExists_after_setDefaultSetting
    (key : string) (value : JsValue) (bot : t (Store:=Store) (GStore:=GStore)) defaults :
  inherited_name key = false ->
  getItem (storage bot) "defaultGuildSettings" = VObj defaults ->
  (forall o, getItem (setItem (storage bot) "defaultGuildSettings" (VObj o))
               "defaultGuildSettings" = VObj o) ->
  defaultSettingExists key (snd (setDefaultSetting key value bot)) = Return (truthy value)
  /\ (forall key', key' <> key ->
        defaultSettingExists key' (snd (setDefaultSetting key value bot))
        = defaultSettingExists key' bot).
Proof.
  intros _ Hd Hget.
  rewrite (BotFacts.setDefaultSetting_on_object key value bot defaults Hd). cbn [snd].
  unfold defaultSettingExists. cbn [storage]. rewrite Hget, Hd. cbn. split.
  - rewrite lookup_insert_eq. cbn. rewrite negb_involutive. reflexivity.
  - intros key' Hne. rewrite lookup_insert_ne by congruence. reflexivity.
Qed.

(** ** getPrefix *)


(** X15: [setDefaultSetting(key, value)] changes the prefix of no guild
    in which the key exists; and when setting [key] does not change what
    [getSetting('prefix')] gives, it changes the prefix of no guild at
    all. *)
Theorem setDefaultSetting_keeps_prefixes
    (key : string) (value : JsValue) (bot : t (Store:=Store) (GStore:=GStore)) (guild : string) :
  (forall g, guildStorages bot !! guild = Some g -> settingExists g key = true ->
     getPrefix guild (snd (setDefaultSetting key value bot)) = getPrefix guild bot)
  /\ ((forall g, getSetting (setSetting g key value) "prefix" = getSetting g "prefix") ->
        getPrefix guild (snd (setDefaultSetting key value bot)) = getPrefix guild bot).
Proof.
  unfold getPrefix. split.
  - intros g Hg He.
    destruct (BotFacts.setDefaultSetting_guildStorages key value bot) as [-> | ->];
      [reflexivity|].
    rewrite lookup_fmap, Hg. cbn. unfold push_default. rewrite He. reflexivity.
  - intros Hlaw.
    destruct (BotFacts.setDefaultSetting_guildStorages key value bot) as [-> | ->];
      [reflexivity|].
    rewrite lookup_fmap. destruct (guildStorages bot !! guild) as [g|]; [|reflexivity].
    cbn. unfold push_default. destruct (settingExists g key); cbn; [reflexivity|].
    rewrite Hlaw. reflexivity.
Qed.

(** ** The 'guildDelete' listener *)

(** X16: when a guild is deleted, its storage and no other leaves the
    bot: afterwards [getPrefix] throws a [TypeError] for that guild, every
    other guild id has the storage and the prefix it had, and the bot
    storage, with what [defaultSettingExists] returns, is untouched. *)
Theorem guildDelete_drops_that_guild_only
    (guild : Guild.t) (bot : t (Store:=Store) (GStore:=GStore)) :
  getPrefix (Guild.id guild) (guildDelete_listener guild bot) = Throw TypeError
  /\ (forall other, other <> Guild.id guild ->
        guildStorages (guildDelete_listener guild bot) !! other = guildStorages bot !! other
        /\ getPrefix other (guildDelete_listener guild bot) = getPrefix other bot)
  /\ storage (guildDelete_listener guild bot) = storage bot
  /\ (forall key, defaultSettingExists key (guildDelete_listener guild bot)
                  = defaultSettingExists key bot).
Proof.
  unfold getPrefix, guildDelete_listener. cbn. split; [|split; [|split]].
  - rewrite lookup_delete_eq. reflexivity.
  - intros other Hne. rewrite lookup_delete_ne by congruence. split; reflexivity.
  - reflexivity.
  - reflexivity.
Qed.

(** X17: [setDefaultSetting] and the deletion of a guild commute: the
    completion and the bot are the same whichever comes first, so a
    deleted guild does not come back through a later default. *)
Theorem setDefaultSetting_guildDelete_commute
    (key : string) (value : JsValue) (guild : Guild.t) (bot : t (Store:=Store) (GStore:=GStore)) :
  setDefaultSetting key value (guildDelete_listener guild bot)
  = (fst (setDefaultSetting key value bot),
     guildDelete_listener guild (snd (setDefaultSetting key value bot)))
  /\ guildStorages (snd (setDefaultSetting key value (guildDelete_listener guild bot)))
       !! Guild.id guild = None.
Proof.
  assert (Heq : setDefaultSetting key value (guildDelete_listener guild bot)
                = (fst (setDefaultSetting key value bot),
                   guildDelete_listener guild (snd (setDefaultSetting key value bot)))).
  { unfold setDefaultSetting, guildDelete_listener. cbn.
    destruct (truthy (getItem (storage bot) "defaultGuildSettings")); cbn; [|reflexivity].
    destruct (set_prop _ key value); cbn; [|reflexivity].
    rewrite fmap_delete. reflexivity. }
  split; [exact Heq|].
  rewrite Heq. cbn. apply lookup_delete_eq.
Qed.

End WithStorage.

(** ** The properties on the map storages *)

Lemma map_getItem_setItem (s : gmap string JsValue) (k : string) (v : JsValue) :
  getItem (setItem s k v) k = v.
Proof. cbn. rewrite lookup_insert_eq. reflexivity. Qed.

Lemma map_settingExists_setSetting (g : gmap string JsValue) (k : string) (v : JsValue) :
  settingExists (setSetting g k v) k = true.
Proof. cbn. apply bool_decide_eq_true. rewrite lookup_insert_eq. eexists; reflexivity. Qed.

Lemma map_getSetting_setSetting_ne (g : gmap string JsValue) (k k' : string) (v : JsValue) :
  k <> k' -> getSetting (setSetting g k v) k' = getSetting g k'.
Proof. intros Hne. cbn. rewrite lookup_insert_ne by exact Hne. reflexivity. Qed.

Lemma constructed_bot_is_complete_witness :
  constructor (Store:=gmap string JsValue) (GStore:=gmap string JsValue)
    (VObj {["prefix" := VStr "/"]}) (VObj sample_options)
  = Return (sample_bot sample_storage ∅)
  /\ truthy (token (sample_bot sample_storage ∅)) = true
  /\ truthy (name (sample_bot sample_storage ∅)) = true.
Proof.
  assert (Hc : constructor (Store:=gmap string JsValue) (GStore:=gmap string JsValue)
                 (VObj {["prefix" := VStr "/"]}) (VObj sample_options)
               = Return (sample_bot sample_storage ∅)) by reflexivity.
  split; [exact Hc|].
  destruct (constructed_bot_is_complete (VObj {["prefix" := VStr "/"]})
              (VObj sample_options) (sample_bot sample_storage ∅) Hc)
    as (_ & Ht & _ & _ & Hn & _).
  split; [exact Ht|exact Hn].
Defined.

Lemma constructor_rejects_non_objects_witness :
  constructor (Store:=gmap string JsValue) (GStore:=gmap string JsValue) VNull (VNum 5)
  = Throw (Error "You must provide a token for the bot.").
Proof.
  apply (constructor_rejects_non_objects (Store:=gmap string JsValue)
           (GStore:=gmap string JsValue) VNull (VNum 5)).
  intros o; discriminate.
Defined.

Lemma new_bot_knows_no_guild_witness :
  getPrefix "42" (sample_bot sample_storage ∅) = Throw TypeError
  /\ guildStorages (snd (setDefaultSetting "prefix" (VStr "?") (sample_bot sample_storage ∅)))
     = ∅.
Proof.
  assert (Hc : constructor (Store:=gmap string JsValue) (GStore:=gmap string JsValue)
                 (VObj {["prefix" := VStr "/"]}) (VObj sample_options)
               = Return (sample_bot sample_storage ∅)) by reflexivity.
  destruct (new_bot_knows_no_guild (VObj {["prefix" := VStr "/"]})
              (VObj sample_options) (sample_bot sample_storage ∅) Hc)
    as (Hp & Hs).
  split; [apply Hp|apply Hs].
Defined.


Lemma later_default_reaches_no_guild_witness :
  guildStorages
    (snd (setDefaultSetting "prefix" (VStr "$")
            (snd (setDefaultSetting "prefix" (VStr "?")
                    (sample_bot sample_storage sample_guildStorages)))))
  = guildStorages
      (snd (setDefaultSetting "prefix" (VStr "?")
              (sample_bot sample_storage sample_guildStorages))).
Proof.
  apply (later_default_reaches_no_guild "prefix" (VStr "?") (VStr "$")
           (sample_bot sample_storage sample_guildStorages) {["prefix" := VStr "/"]}).
  - reflexivity.
  - intros o. apply map_getItem_setItem.
  - intros g. apply map_settingExists_setSetting.
Defined.

Lemma defaultSettingExists_needs_the_item_witness :
  defaultSettingExists "prefix" (sample_bot ∅ sample_guildStorages) = Throw TypeError
  /\ setDefaultSetting "prefix" (VStr "?") (sample_bot ∅ sample_guildStorages)
     = (Return tt, sample_bot ∅ sample_guildStorages).
Proof.
  split; [reflexivity|].
  apply (proj2 (defaultSettingExists_needs_the_item "prefix"
                  (sample_bot ∅ sample_guildStorages)) TypeError).
  reflexivity.
Defined.

Lemma defaultSettingExists_after_setDefaultSetting_witness :
  defaultSettingExists "language"
    (snd (setDefaultSetting "language" (VStr "")
            (sample_bot sample_storage sample_guildStorages)))
  = Return false
  /\ defaultSettingExists "prefix"
       (snd (setDefaultSetting "language" (VStr "")
               (sample_bot sample_storage sample_guildStorages)))
     = defaultSettingExists "prefix" (sample_bot sample_storage sample_guildStorages).
Proof.
  destruct (defaultSettingExists_after_setDefaultSetting "language" (VStr "")
              (sample_bot sample_storage sample_guildStorages) {["prefix" := VStr "/"]})
    as (Hk & Hother).
  - reflexivity.
  - reflexivity.
  - intros o. apply map_getItem_setItem.
  - split; [exact Hk|]. apply Hother. discriminate.
Defined.

Lemma setDefaultSetting_keeps_prefixes_witness :
  getPrefix "42" (snd (setDefaultSetting "prefix" (VStr "?")
                         (sample_bot sample_storage sample_guildStorages)))
  = getPrefix "42" (sample_bot sample_storage sample_guildStorages)
  /\ getPrefix "43" (snd (setDefaultSetting "language" (VStr "en")
                            (sample_bot sample_storage sample_guildStorages)))
     = getPrefix "43" (sample_bot sample_storage sample_guildStorages).
Proof.
  split.
  - apply (proj1 (setDefaultSetting_keeps_prefixes "prefix" (VStr "?")
                    (sample_bot sample_storage sample_guildStorages) "42")
             {["prefix" := VStr "!"]}); reflexivity.
  - apply (proj2 (setDefaultSetting_keeps_prefixes "language" (VStr "en")
                    (sample_bot sample_storage sample_guildStorages) "43")).
    intros g. apply map_getSetting_setSetting_ne. discriminate.
Defined.

Lemma guildDelete_drops_that_guild_only_witness :
  "42" <> Guild.id (Guild.mk "43")
  /\ getPrefix "42" (guildDelete_listener (Guild.mk "43")
                       (sample_bot sample_storage sample_guildStorages))
     = getPrefix "42" (sample_bot sample_storage sample_guildStorages).
Proof.
  split; [discriminate|].
  apply (proj1 (proj2 (guildDelete_drops_that_guild_only (Guild.mk "43")
                         (sample_bot sample_storage sample_guildStorages))) "42").
  discriminate.
Defined.

End BotMore.

(** * Properties of Event *)

Module EventFacts.

Lemma register_all_gives (Client : Type) (clients : list Client) (e : Event.t Client) :
  Event.name Client (Event.register_all Client clients e) = Event.name Client e
  /\ Event.client Client (Event.register_all Client clients e)
     = match last clients with
       | Some c => Some c
       | None => Event.client Client e
       end.
Proof.
  revert e. induction clients as [|c clients IH]; intros e; [split; reflexivity|].
  change (Event.register_all Client (c :: clients) e)
    with (Event.register_all Client clients (Event._register Client c e)).
  destruct (IH (Event._register Client c e)) as [Hn Hc]. split.
  - rewrite Hn. reflexivity.
  - rewrite Hc, last_cons. destruct (last clients); reflexivity.
Qed.

(** X18: an event handler keeps the name its constructor got, whatever
    is registered; it has no client before the first [_register], and
    after several the client is the one registered last. *)
Theorem handler_keeps_name_and_last_client
    (Client : Type) (name : string) (clients : list Client) :
  Event.name Client (Event.register_all Client clients (Event.constructor Client name)) = name
  /\ Event.client Client (Event.register_all Client clients (Event.constructor Client name))
     = last clients.
Proof.
  destruct (register_all_gives Client clients (Event.constructor Client name)) as [Hn Hc].
  split; [exact Hn|]. rewrite Hc. destruct (last clients); reflexivity.
Qed.

End EventFacts.
